(** * module2.py: a determinant report and a three-triple RDF graph

    The script under [src/html/module2.py] has two functions,

      - [calc_det], which builds the array [[1, 2], [3, 4]], asks
        [np.linalg.det] for its determinant and prints one line;
      - [serialize_graph], which builds an [rdflib.Graph], adds three
        triples about two people and returns [g.serialize()].

    Both are embedded below as computations over an explicit interpreter
    state ([World]): the text written to the standard streams, the files
    written, and a store of the mutable objects (arrays and graphs) the
    functions allocate.  A computation either returns a value or raises a
    Python exception; in both cases it hands back the state it reached.

    The parts of NumPy and rdflib the script calls are modelled in the
    modules [np] and [rdflib], at the level of their public interface.
    What the script cannot see of them stays a parameter: the binary64
    number type with the numerical determinant kernel and the float
    formatting ([np.LinAlg]), and the bytes a serializer plugin renders
    for a set of triples ([rdflib.Rendering]).  For the plugin the script
    uses there is a model as well ([turtle_plugin]), next to a reader of
    Turtle ([turtle_reader]). *)

From Stdlib Require Import ZArith Ascii.
From stdpp Require Import base gmap sets list strings pretty.

Local Open Scope string_scope.
#[local] Set Warnings "-clear-no-such-hyp".

(** ** RDF terms *)

(** [rdflib.term.Node] and its three concrete kinds.  A literal carries
    its lexical form, an optional language tag and an optional datatype
    IRI. *)
Inductive Node : Type :=
| IRI (value : string)
| Lit (lexical : string) (language : option string) (datatype : option string)
| Blank (id : string).

#[global] Instance Node_eq_dec : EqDecision Node.
Proof. solve_decision. Defined.

#[global] Instance Node_countable : Countable Node.
Proof.
  refine (inj_countable'
    (fun n => match n with
              | IRI v => inl v
              | Lit l lang dt => inr (inl (l, lang, dt))
              | Blank i => inr (inr i)
              end)
    (fun s => match s with
              | inl v => IRI v
              | inr (inl (l, lang, dt)) => Lit l lang dt
              | inr (inr i) => Blank i
              end) _).
  by intros [].
Defined.

(** A statement: subject, predicate, object. *)
Definition Triple : Type := Node * Node * Node.

(** ** Interpreter state *)

(** Values a function of the script can hand back. *)
Inductive PyVal : Type :=
| PyNone
| PyStr (text : string)
| PyBytes (data : list Byte.byte)
| PyRef (address : nat).

(** The exceptions the modelled library calls can raise. *)
Inductive PyExc : Type :=
| ValueError (msg : string)
| TypeError (msg : string)
| AttributeError (msg : string)
| LinAlgError (msg : string)
| PluginException (msg : string)
| Exception (msg : string).

(** The shape of an array built from a list of rows. *)
Inductive Shape : Type :=
| Shape1 (n : nat)
| Shape2 (m n : nat).

(** Mutable objects: an integer array (shape and row-major entries) or a
    graph (its store, a set of triples). *)
Inductive Obj : Type :=
| ndarray (shape : Shape) (data : list Z)
| GraphObj (store : gset Triple).

Record World : Type := mkWorld {
  stdout : string;
  stderr : string;
  files : gmap string (list Byte.byte);
  heap : list Obj
}.

Inductive Outcome (A : Type) : Type :=
| Returns (a : A) (w : World)
| Raises (e : PyExc) (w : World).
Arguments Returns {A} a w.
Arguments Raises {A} e w.

Definition M (A : Type) : Type := World -> Outcome A.

Definition ret {A} (a : A) : M A := fun w => Returns a w.

Definition bind {A B} (m : M A) (k : A -> M B) : M B :=
  fun w => match m w with
           | Returns a w' => k a w'
           | Raises e w' => Raises e w'
           end.

Definition raise {A} (e : PyExc) : M A := fun w => Raises e w.

Notation "x <- m ;; k" := (bind m (fun x => k))
  (at level 100, m at next level, right associativity).
Notation "m ;;; k" := (bind m (fun _ => k))
  (at level 100, right associativity).

(** *** Streams and files *)

Definition newline : string := String (Ascii.ascii_of_nat 10) EmptyString.

Definition write_stdout (s : string) : M unit :=
  fun w => Returns tt (mkWorld (stdout w ++ s) (stderr w) (files w) (heap w)).

Definition write_stderr (s : string) : M unit :=
  fun w => Returns tt (mkWorld (stdout w) (stderr w ++ s) (files w) (heap w)).

Definition write_file (path : string) (contents : list Byte.byte) : M unit :=
  fun w => Returns tt
    (mkWorld (stdout w) (stderr w) (<[path := contents]> (files w)) (heap w)).

(** [print(s)]: the text, then the line terminator, on standard output. *)
Definition print (s : string) : M unit :=
  write_stdout s ;;; write_stdout newline.

(** *** The object store *)

(** A new object gets the next free address. *)
Definition alloc (o : Obj) : M nat :=
  fun w => Returns (length (heap w))
             (mkWorld (stdout w) (stderr w) (files w) (heap w ++ [o])).

Definition deref (r : nat) : M Obj :=
  fun w => match heap w !! r with
           | Some o => Returns o w
           | None => Raises (Exception "dangling reference") w
           end.

Definition assign (r : nat) (o : Obj) : M unit :=
  fun w => Returns tt
    (mkWorld (stdout w) (stderr w) (files w) (<[r := o]> (heap w))).

(** ** NumPy

    Arrays are built from nested lists of integers; the determinant is
    computed in binary64 by a kernel this development does not look
    into. *)

Module np.

(** The rows of a nested list literal all have the length of the first. *)
Definition homogeneous (rows : list (list Z)) : bool :=
  match rows with
  | [] => true
  | r :: rest => forallb (fun r' => Nat.eqb (length r') (length r)) rest
  end.

(** [np.array(rows)] for a list of lists of integers: a fresh array.  A
    ragged list has no array shape and is refused. *)
Definition array (rows : list (list Z)) : M nat :=
  match rows with
  | [] => alloc (ndarray (Shape1 0) [])
  | r :: _ =>
      if homogeneous rows
      then alloc (ndarray (Shape2 (length rows) (length r)) (concat rows))
      else raise (ValueError "inhomogeneous shape")
  end.

(** The numerical side of NumPy: the binary64 numbers, the LAPACK-based
    determinant of an [n] by [n] array given by its row-major entries,
    and the text [str] and an empty format specification give a float. *)
Class LinAlg : Type := {
  float64 : Type;
  det_kernel : nat -> list Z -> float64;
  float_str : float64 -> string
}.

Module linalg.

(** [np.linalg.det(a)]: the argument must have at least two
    dimensions and its last two must be equal; the kernel then reads
    the entries.  The argument is left as it is. *)
Definition det `{LinAlg} (a : nat) : M float64 :=
  o <- deref a ;;
  match o with
  | ndarray (Shape1 _) _ =>
      raise (LinAlgError
        "1-dimensional array given. Array must be at least two-dimensional")
  | ndarray (Shape2 m n) data =>
      if Nat.eqb m n then ret (det_kernel n data)
      else raise (LinAlgError "Last 2 dimensions of the array must be square")
  | GraphObj _ => raise (TypeError "not an array")
  end.

End linalg.

End np.

(** ** rdflib

    The interface of rdflib 6 and later, where [Graph.serialize] writes
    Turtle by default and returns text. *)

Module rdflib.

(** [rdflib.term._invalid_uri_chars]: the angle brackets, the double
    quote, the space, the braces, the bar, the backslash, the caret and
    the backquote, by code. *)
Definition _invalid_uri_chars : list ascii :=
  map Ascii.ascii_of_nat [60; 62; 34; 32; 123; 125; 124; 92; 94; 96]%nat.

Fixpoint contains (c : ascii) (s : string) : bool :=
  match s with
  | EmptyString => false
  | String c' s' => if Ascii.eqb c c' then true else contains c s'
  end.

Definition _is_valid_uri (uri : string) : bool :=
  forallb (fun c => negb (contains c uri)) _invalid_uri_chars.

(** [URIRef(value)]: the constructor accepts every string; one that
    does not look like an IRI is reported through the module's logger,
    which without handlers writes the warning to standard error. *)
Definition URIRef (value : string) : M Node :=
  (if _is_valid_uri value then ret tt
   else write_stderr
          (value ++ " does not look like a valid URI, trying to serialize this will break."
                 ++ newline)) ;;;
  ret (IRI value).

(** [Literal(value)] for a [str] value and no [lang] or [datatype]
    argument: a plain literal, neither field is inferred. *)
Definition Literal (value : string) : M Node :=
  ret (Lit value None None).

(** A [DefinedNamespace]: a base IRI and the closed list of its terms. *)
Record DefinedNamespace : Type := {
  _name : string;
  _NS : string;
  _fail : bool;
  _warn : bool;
  _terms : list string
}.

(** Attribute access [ns.name]: a term outside the vocabulary is an
    error when the namespace is closed ([_fail]), a warning when it
    only warns; the result is the base IRI followed by the name. *)
Definition getattr (ns : DefinedNamespace) (name : string) : M Node :=
  (if (_warn ns || _fail ns) && negb (bool_decide (name ∈ _terms ns))
   then if _fail ns
        then raise (AttributeError
               ("term '" ++ name ++ "' not in namespace '" ++ _NS ns ++ "'"))
        else write_stderr
               ("Code: " ++ name ++ " is not defined in namespace " ++ _name ns
                ++ newline)
   else ret tt) ;;;
  URIRef (_NS ns ++ name).

(** The serializer plugins [rdflib.plugin] registers. *)
Inductive Serializer : Type :=
| XMLSerializer
| PrettyXMLSerializer
| N3Serializer
| TurtleSerializer
| LongTurtleSerializer
| NTSerializer
| NT11Serializer
| JsonLDSerializer
| NQuadsSerializer
| TriXSerializer
| TrigSerializer
| HextuplesSerializer
| PatchSerializer.

Definition _plugins : list (string * Serializer) :=
  [ ("application/rdf+xml", XMLSerializer);
    ("xml", XMLSerializer);
    ("pretty-xml", PrettyXMLSerializer);
    ("text/n3", N3Serializer);
    ("n3", N3Serializer);
    ("text/turtle", TurtleSerializer);
    ("turtle", TurtleSerializer);
    ("ttl", TurtleSerializer);
    ("longturtle", LongTurtleSerializer);
    ("application/n-triples", NTSerializer);
    ("ntriples", NTSerializer);
    ("nt", NTSerializer);
    ("nt11", NT11Serializer);
    ("json-ld", JsonLDSerializer);
    ("application/ld+json", JsonLDSerializer);
    ("application/n-quads", NQuadsSerializer);
    ("nquads", NQuadsSerializer);
    ("application/trix", TriXSerializer);
    ("trix", TriXSerializer);
    ("application/trig", TrigSerializer);
    ("trig", TrigSerializer);
    ("hext", HextuplesSerializer);
    ("patch", PatchSerializer) ].

Fixpoint assoc {A} (k : string) (l : list (string * A)) : option A :=
  match l with
  | [] => None
  | (k', a) :: l' => if String.eqb k k' then Some a else assoc k l'
  end.

(** [plugin.get(format, Serializer)]. *)
Definition plugin_get (format : string) : M Serializer :=
  match assoc format _plugins with
  | Some p => ret p
  | None => raise (PluginException ("No plugin registered for " ++ format))
  end.

(** A term has an N3 form unless it is an IRI with a character
    [URIRef] warns about: asking for the N3 form of such an IRI is an
    error. *)
Definition writable (n : Node) : bool :=
  match n with
  | IRI v => _is_valid_uri v
  | Lit _ _ _ | Blank _ => true
  end.

Definition statement (t : Triple) : bool :=
  let '(s, p, o) := t in writable s && writable p && writable o.

(** What a serializer plugin writes for a set of statements in a given
    encoding, and how bytes decode to text. *)
Class Rendering : Type := {
  render : Serializer -> gset Triple -> string -> list Byte.byte;
  decode : string -> list Byte.byte -> string
}.

(** [Graph()]: a fresh graph with an empty store. *)
Definition Graph : M nat := alloc (GraphObj ∅).

Definition store_of (g : nat) : M (gset Triple) :=
  o <- deref g ;;
  match o with
  | GraphObj s => ret s
  | ndarray _ _ => raise (AttributeError "not a Graph")
  end.

(** [g.add((s, p, o))]: the triple joins the store; the graph itself is
    returned. *)
Definition add (g : nat) (t : Triple) : M nat :=
  s <- store_of g ;;
  assign g (GraphObj ({[ t ]} ∪ s)) ;;;
  ret g.

(** [len(g)]. *)
Definition len (g : nat) : M nat :=
  s <- store_of g ;;
  ret (size s).

(** A serializer asks every term for its N3 form while it writes; it
    fails on the first IRI that has none. *)
Definition run_serializer `{Rendering} (serializer : Serializer)
    (s : gset Triple) (encoding : string) : M (list Byte.byte) :=
  if forallb statement (elements s)
  then ret (render serializer s encoding)
  else raise (Exception
         "does not look like a valid URI, I cannot serialize this as N3/Turtle").

(** [g.serialize(destination, format, encoding)].  The plugin for
    [format] renders the store.  Without a destination the bytes are
    returned, decoded to text when no encoding was asked for; with a
    destination the file is opened for writing, the bytes go there and
    the graph itself is returned. *)
Definition serialize `{Rendering} (g : nat) (destination : option string)
    (format : string) (encoding : option string) : M PyVal :=
  serializer <- plugin_get format ;;
  s <- store_of g ;;
  match destination with
  | None =>
      match encoding with
      | None =>
          b <- run_serializer serializer s "utf-8" ;;
          ret (PyStr (decode "utf-8" b))
      | Some enc =>
          b <- run_serializer serializer s enc ;;
          ret (PyBytes b)
      end
  | Some path =>
      write_file path [] ;;;
      b <- run_serializer serializer s (default "utf-8" encoding) ;;
      write_file path b ;;;
      ret (PyRef g)
  end.

Module namespace.

(** The FOAF vocabulary, a closed namespace. *)
Definition FOAF : DefinedNamespace := {|
  _name := "FOAF";
  _NS := "http://xmlns.com/foaf/0.1/";
  _fail := true;
  _warn := true;
  _terms :=
    [ "Agent"; "Document"; "Group"; "Image"; "LabelProperty";
      "OnlineAccount"; "OnlineChatAccount"; "OnlineEcommerceAccount";
      "OnlineGamingAccount"; "Organization"; "Person";
      "PersonalProfileDocument"; "Project";
      "account"; "accountName"; "accountServiceHomepage"; "age";
      "aimChatID"; "based_near"; "birthday"; "currentProject";
      "depiction"; "depicts"; "dnaChecksum"; "familyName"; "family_name";
      "firstName"; "focus"; "fundedBy"; "geekcode"; "gender";
      "givenName"; "givenname"; "holdsAccount"; "homepage"; "icqChatID";
      "img"; "interest"; "isPrimaryTopicOf"; "jabberID"; "knows";
      "lastName"; "logo"; "made"; "maker"; "mbox"; "mbox_sha1sum";
      "member"; "membershipClass"; "msnChatID"; "myersBriggs"; "name";
      "nick"; "openid"; "page"; "pastProject"; "phone"; "plan";
      "primaryTopic"; "publications"; "schoolHomepage"; "sha1";
      "skypeID"; "status"; "surname"; "theme"; "thumbnail"; "tipjar";
      "title"; "topic"; "topic_interest"; "weblog"; "workInfoHomepage";
      "workplaceHomepage"; "yahooChatID" ]
|}.

End namespace.

End rdflib.

(** ** The script *)

Section module2.

Context `{np.LinAlg} `{rdflib.Rendering}.

Import rdflib rdflib.namespace.

(** The nested list the script hands to [np.array]. *)
Definition matrix : list (list Z) := [[1; 2]; [3; 4]]%Z.

Definition calc_det : M PyVal :=
  a <- np.array matrix ;;
  d <- np.linalg.det a ;;
  print ("Determinant is " ++ np.float_str d) ;;;
  ret PyNone.

Definition serialize_graph : M PyVal :=
  g <- Graph ;;

  alice <- URIRef "http://example.org/alice" ;;
  bob <- URIRef "http://example.org/bob" ;;

  foaf_name <- getattr FOAF "name" ;;
  alice_lit <- Literal "Alice" ;;
  add g (alice, foaf_name, alice_lit) ;;;
  foaf_name' <- getattr FOAF "name" ;;
  bob_lit <- Literal "Bob" ;;
  add g (bob, foaf_name', bob_lit) ;;;
  foaf_knows <- getattr FOAF "knows" ;;
  add g (alice, foaf_knows, bob) ;;;

  (* g.serialize(): destination=None, format="turtle", encoding=None *)
  serialize g None "turtle" None.

End module2.

(** ** The three statements of the script, as the spec lists them *)

Definition alice : Node := IRI "http://example.org/alice".
Definition bob : Node := IRI "http://example.org/bob".
Definition foaf_name : Node := IRI "http://xmlns.com/foaf/0.1/name".
Definition foaf_knows : Node := IRI "http://xmlns.com/foaf/0.1/knows".

Definition alice_name : Triple := (alice, foaf_name, Lit "Alice" None None).
Definition bob_name : Triple := (bob, foaf_name, Lit "Bob" None None).
Definition alice_knows_bob : Triple := (alice, foaf_knows, bob).

Definition people : gset Triple :=
  {[ alice_knows_bob ]} ∪ ({[ bob_name ]} ∪ ({[ alice_name ]} ∪ ∅)).

(** The state a call leaves: the streams and files of [w], one more
    object on the heap. *)
Definition with_heap (w : World) (h : list Obj) : World :=
  mkWorld (stdout w) (stderr w) (files w) h.

Definition printed (w : World) (s : string) : World :=
  mkWorld (stdout w ++ s) (stderr w) (files w) (heap w).

(** ** What the two functions are expected to produce *)

Section expected.

Context `{np.LinAlg} `{rdflib.Rendering}.

(** The determinant as the kernel reports it for the script's array. *)
Definition determinant : np.float64 := np.det_kernel 2 [1; 2; 3; 4]%Z.

(** The line [calc_det] prints, without its terminator. *)
Definition report_line : string := "Determinant is " ++ np.float_str determinant.

(** The text the Turtle plugin renders for a store. *)
Definition turtle (s : gset Triple) : string :=
  rdflib.decode "utf-8" (rdflib.render rdflib.TurtleSerializer s "utf-8").

End expected.



(** ** An exact number type

    Integers in place of binary64 numbers, the Laplace expansion in place
    of the LAPACK kernel, decimal notation for [str].  The instance stands
    for no NumPy build; it records that the interface [np.LinAlg] can be
    met. *)

Module exact.

Fixpoint rows_of (m n : nat) (data : list Z) : list (list Z) :=
  match m with
  | O => []
  | S m' => take n data :: rows_of m' n (drop n data)
  end.

Definition without (j : nat) (row : list Z) : list Z :=
  take j row ++ drop (S j) row.

Fixpoint laplace (n : nat) (rows : list (list Z)) : Z :=
  match n, rows with
  | S n', r :: rest =>
      foldr Z.add 0%Z
        (imap (fun j x =>
                 ((if Nat.even j then 1 else -1) * x
                  * laplace n' (map (without j) rest))%Z) r)
  | _, _ => 1%Z
  end.

Definition linalg : np.LinAlg := {|
  np.float64 := Z;
  np.det_kernel := fun n data => laplace n (rows_of n n data);
  np.float_str := pretty
|}.

End exact.

(** ** Vocabulary of the statements *)

(** The interpreter before anything ran. *)
Definition boot : World := mkWorld "" "" ∅ [].

(** How often a character occurs in a text. *)
Fixpoint occurrences (c : ascii) (s : string) : nat :=
  match s with
  | EmptyString => 0
  | String c' s' => (if Ascii.eqb c c' then 1 else 0) + occurrences c s'
  end.

Definition line_feed : ascii := Ascii.ascii_of_nat 10.

(** A sequence of [add] calls on one graph. *)
Fixpoint add_all (g : nat) (ts : list Triple) : M unit :=
  match ts with
  | [] => ret tt
  | t :: ts' => rdflib.add g t ;;; add_all g ts'
  end.

(** ** Callers

    A caller of the module invokes its two functions, any number of
    times and in any order. *)

Inductive Call : Type :=
| call_calc_det
| call_serialize_graph.

(** Text made of the texts of a list, one after the other. *)
Definition concat_text (l : list string) : string :=
  foldr String.append EmptyString l.

(** How many lines a call is expected to print. *)
Definition lines_of (c : Call) : nat :=
  match c with
  | call_calc_det => 1
  | call_serialize_graph => 0
  end.

Section callers.

Context `{np.LinAlg} `{rdflib.Rendering}.

Definition call (c : Call) : M PyVal :=
  match c with
  | call_calc_det => calc_det
  | call_serialize_graph => serialize_graph
  end.

(** The calls of a list in order, their results collected. *)
Fixpoint call_all (cs : list Call) : M (list PyVal) :=
  match cs with
  | [] => ret []
  | c :: cs' =>
      r <- call c ;;
      rs <- call_all cs' ;;
      ret (r :: rs)
  end.

(** What a call is expected to return, to print and to allocate. *)
Definition result_of (c : Call) : PyVal :=
  match c with
  | call_calc_det => PyNone
  | call_serialize_graph => PyStr (turtle people)
  end.

Definition output_of (c : Call) : string :=
  match c with
  | call_calc_det => report_line ++ newline
  | call_serialize_graph => EmptyString
  end.

Definition object_of (c : Call) : Obj :=
  match c with
  | call_calc_det => ndarray (Shape2 2 2) [1; 2; 3; 4]%Z
  | call_serialize_graph => GraphObj people
  end.

End callers.

(** ** Characters *)

(** The code of a character, and the ASCII letters and digits. *)
Definition code (c : ascii) : nat := nat_of_ascii c.

Definition is_letter (c : ascii) : bool :=
  (Nat.leb 65 (code c) && Nat.leb (code c) 90)
  || (Nat.leb 97 (code c) && Nat.leb (code c) 122).

Definition is_digit (c : ascii) : bool :=
  Nat.leb 48 (code c) && Nat.leb (code c) 57.

(** ** The Turtle plugin

    A model of rdflib's [TurtleSerializer], pass by pass and under the
    names of its methods, for the graphs [covered] describes and the
    prefixes a fresh [Graph()] binds.  Where the plugin would make up a
    prefix, or meets a term the model leaves out, the model gives no
    text. *)

Module turtle_plugin.

Definition RDF_type : string := "http://www.w3.org/1999/02/22-rdf-syntax-ns#type".
Definition RDF_nil : string := "http://www.w3.org/1999/02/22-rdf-syntax-ns#nil".
Definition RDFS_label : string := "http://www.w3.org/2000/01/rdf-schema#label".
Definition RDFS_Class : string := "http://www.w3.org/2000/01/rdf-schema#Class".
Definition XMLNS : string := "http://www.w3.org/XML/1998/namespace".

(** The prefixes a fresh [Graph()] binds. *)
Definition bindings : list (string * string) :=
  [ ("brick", "https://brickschema.org/schema/Brick#");
    ("csvw", "http://www.w3.org/ns/csvw#");
    ("dc", "http://purl.org/dc/elements/1.1/");
    ("dcat", "http://www.w3.org/ns/dcat#");
    ("dcmitype", "http://purl.org/dc/dcmitype/");
    ("dcterms", "http://purl.org/dc/terms/");
    ("dcam", "http://purl.org/dc/dcam/");
    ("doap", "http://usefulinc.com/ns/doap#");
    ("foaf", "http://xmlns.com/foaf/0.1/");
    ("geo", "http://www.opengis.net/ont/geosparql#");
    ("odrl", "http://www.w3.org/ns/odrl/2/");
    ("org", "http://www.w3.org/ns/org#");
    ("prof", "http://www.w3.org/ns/dx/prof/");
    ("prov", "http://www.w3.org/ns/prov#");
    ("qb", "http://purl.org/linked-data/cube#");
    ("schema", "https://schema.org/");
    ("sh", "http://www.w3.org/ns/shacl#");
    ("skos", "http://www.w3.org/2004/02/skos/core#");
    ("sosa", "http://www.w3.org/ns/sosa/");
    ("ssn", "http://www.w3.org/ns/ssn/");
    ("time", "http://www.w3.org/2006/time#");
    ("vann", "http://purl.org/vocab/vann/");
    ("void", "http://rdfs.org/ns/void#");
    ("wgs", "https://www.w3.org/2003/01/geo/wgs84_pos#");
    ("owl", "http://www.w3.org/2002/07/owl#");
    ("rdf", "http://www.w3.org/1999/02/22-rdf-syntax-ns#");
    ("rdfs", "http://www.w3.org/2000/01/rdf-schema#");
    ("xsd", "http://www.w3.org/2001/XMLSchema#");
    ("xml", "http://www.w3.org/XML/1998/namespace") ].

(** [store.prefix(namespace)]. *)
Fixpoint prefix_of (namespace : string) (l : list (string * string)) : option string :=
  match l with
  | [] => None
  | (p, ns) :: l' => if String.eqb ns namespace then Some p else prefix_of namespace l'
  end.

(** [ALLOWED_NAME_CHARS], as far as they are ASCII: the hyphen, the dot,
    the underscore, the percent sign and the parentheses. *)
Definition allowed_name_char (c : ascii) : bool :=
  bool_decide (code c ∈ [45; 46; 95; 37; 40; 41]).

Definition name_char (c : ascii) : bool := is_letter c || is_digit c.

Definition split_start (c : ascii) : bool :=
  is_letter c || is_digit c || Nat.eqb (code c) 95.

Definition ascii_only (s : string) : bool :=
  forallb (fun c => Nat.ltb (code c) 128) (String.list_ascii_of_string s).

(** The characters a name can end in, read from the end of the IRI. *)
Fixpoint name_tail (rev_uri : list ascii) : list ascii :=
  match rev_uri with
  | [] => []
  | c :: r => if name_char c || allowed_name_char c then c :: name_tail r else []
  end.

(** How many leading characters satisfy [p]. *)
Fixpoint leading (p : ascii -> bool) (l : list ascii) : nat :=
  match l with
  | [] => 0
  | c :: r => if p c then S (leading p r) else 0
  end.

(** [split_uri]: the IRI is cut in front of the first character, after
    its last character that cannot be part of a name, that can start
    one; there is no cut when no character of the IRI is left in
    front, or none after. *)
Definition split_uri (uri : string) : option (string * string) :=
  if String.prefix XMLNS uri
  then Some (XMLNS, String.substring (String.length XMLNS)
                      (String.length uri - String.length XMLNS) uri)
  else
    let chars := String.list_ascii_of_string uri in
    let tail := rev (name_tail (rev chars)) in
    if Nat.eqb (length tail) (length chars) then None
    else
      let skipped := leading (fun c => negb (split_start c)) tail in
      if Nat.eqb skipped (length tail) then None
      else
        let cut := length chars - length tail + skipped in
        Some (String.string_of_list_ascii (take cut chars),
              String.string_of_list_ascii (drop cut chars)).

(** The longest bound namespace that extends [namespace] and starts
    [uri], when there is one. *)
Definition longest_namespace (namespace uri : string) : string :=
  foldr (fun '(_, ns) best =>
           if String.prefix namespace ns && String.prefix ns uri
              && Nat.ltb (String.length best) (String.length ns)
           then ns else best)
        namespace bindings.

Inductive QName : Type :=
| Prefixed (prefix namespace name : string)
| Unprefixed
| Unbound.

(** [compute_qname] on the bindings of a fresh graph: [Unbound] where it
    would make up a prefix. *)
Definition compute_qname (uri : string) (generate : bool) : QName :=
  let start :=
    match split_uri uri with
    | Some (ns, _) => Some ns
    | None => if prefix_of uri bindings is Some _ then Some uri else None
    end in
  match start with
  | None => Unprefixed
  | Some ns0 =>
      let ns := longest_namespace ns0 uri in
      let name := String.substring (String.length ns)
                    (String.length uri - String.length ns) uri in
      match prefix_of ns bindings with
      | Some p => Prefixed p ns name
      | None => if generate then Unbound else Unprefixed
      end
  end.

Fixpoint escape_parens (s : string) : string :=
  match s with
  | EmptyString => EmptyString
  | String c s' =>
      if Nat.eqb (code c) 40 || Nat.eqb (code c) 41
      then String (Ascii.ascii_of_nat 92) (String c (escape_parens s'))
      else String c (escape_parens s')
  end.

Fixpoint ends_with_dot (s : string) : bool :=
  match s with
  | EmptyString => false
  | String c EmptyString => Nat.eqb (code c) 46
  | String _ s' => ends_with_dot s'
  end.

(** [getQName]: the prefixed name of an IRI with the binding it uses, or
    nothing when it has none; [None] where a prefix would be made up. *)
Definition getQName (uri : string) (gen_prefix : bool)
    : option (option (string * (string * string))) :=
  match compute_qname uri gen_prefix with
  | Unbound => None
  | Unprefixed =>
      match prefix_of uri bindings with
      | Some p => Some (Some (p ++ ":", (p, uri)))
      | None => Some None
      end
  | Prefixed p ns name =>
      let local := escape_parens name in
      if ends_with_dot local then Some None
      else Some (Some (p ++ ":" ++ local, (p, ns)))
  end.


(** *** What the model covers

    Graphs of ASCII IRIs and of plain or language-tagged literals without
    a line feed, with IRIs as subjects and predicates, and no blank
    node. *)

Definition plain_text (s : string) : bool :=
  ascii_only s && negb (rdflib.contains (Ascii.ascii_of_nat 10) s).

Definition starts_with_letter (s : string) : bool :=
  match s with
  | String c _ => is_letter c
  | EmptyString => false
  end.

Definition covered_iri (v : string) : bool :=
  ascii_only v && rdflib._is_valid_uri v && starts_with_letter v.

Definition covered_node (n : Node) : bool :=
  match n with
  | IRI v => covered_iri v
  | Lit l None None => plain_text l
  | Lit l (Some lang) None => plain_text l && ascii_only lang
  | Lit _ _ (Some _) => false
  | Blank _ => false
  end.

Definition covered (t : Triple) : bool :=
  let '(s, p, o) := t in
  match s, p with
  | IRI _, IRI _ => covered_node s && covered_node p && covered_node o
  | _, _ => false
  end.

(** *** Order *)

(** Terms of one kind are ordered as their texts are; an IRI comes
    before a literal; literals are ordered by language tag first, the
    untagged ones in front. *)
Definition node_le (a b : Node) : bool :=
  match a, b with
  | IRI x, IRI y => String.leb x y
  | IRI _, _ => true
  | _, IRI _ => false
  | Lit x None _, Lit y None _ => String.leb x y
  | Lit _ None _, Lit _ (Some _) _ => true
  | Lit _ (Some _) _, Lit _ None _ => false
  | Lit x (Some lx) _, Lit y (Some ly) _ =>
      if String.eqb lx ly then String.leb x y else String.leb lx ly
  | Blank x, Blank y => String.leb x y
  | Blank _, _ => true
  | _, Blank _ => false
  end.

Fixpoint insert_sorted {A} (le : A -> A -> bool) (x : A) (l : list A) : list A :=
  match l with
  | [] => [x]
  | y :: l' => if le x y then x :: l else y :: insert_sorted le x l'
  end.

Definition sort {A} (le : A -> A -> bool) (l : list A) : list A :=
  foldr (insert_sorted le) [] l.

(** *** The passes of the serializer *)

(** [_references]: how often a term is the object of a triple. *)
Definition references (ts : list Triple) (n : Node) : nat :=
  length (filter (fun t : Triple => t.2 = n) ts).

Definition subjects (ts : list Triple) : list Node :=
  remove_dups (map (fun t : Triple => t.1.1) ts).

(** [orderSubjects]: the instances of [rdfs:Class] first, in order; then
    the other subjects, the less referenced ones first. *)
Definition orderSubjects (ts : list Triple) : list Node :=
  let classes :=
    sort node_le
      (remove_dups
         (map (fun t : Triple => t.1.1)
            (filter (fun t : Triple =>
                       t.1.2 = IRI RDF_type /\ t.2 = IRI RDFS_Class) ts))) in
  let others := filter (fun s => s ∉ classes) (subjects ts) in
  (classes
   ++ sort (fun a b =>
              if Nat.eqb (references ts a) (references ts b) then node_le a b
              else Nat.leb (references ts a) (references ts b))
           others)%list.

(** [buildPredicateHash] and [sortProperties]: the predicates of a
    subject, [rdf:type] and [rdfs:label] first, with their objects in
    order. *)
Definition properties (ts : list Triple) (s : Node) : list (Node * list Node) :=
  let mine := filter (fun t : Triple => t.1.1 = s) ts in
  let preds := remove_dups (map (fun t : Triple => t.1.2) mine) in
  let first := filter (fun p => p ∈ preds) [IRI RDF_type; IRI RDFS_label] in
  let rest := sort node_le (filter (fun p => p ∉ first) preds) in
  map (fun p =>
         (p, sort node_le
               (map (fun t : Triple => t.2)
                  (filter (fun t : Triple => t.1.2 = p) mine))))
      (first ++ rest)%list.

Definition backslash : ascii := Ascii.ascii_of_nat 92.
Definition dquote : string := String (Ascii.ascii_of_nat 34) EmptyString.

(** [Literal._quote_literal] for a text without line feed: a backslash
    in front of the backslash and of the double quote, [\r] for the
    carriage return. *)
Fixpoint quote_literal (s : string) : string :=
  match s with
  | EmptyString => EmptyString
  | String c s' =>
      if Nat.eqb (code c) 92 || Nat.eqb (code c) 34
      then String backslash (String c (quote_literal s'))
      else if Nat.eqb (code c) 13
      then String backslash (String "r"%char (quote_literal s'))
      else String c (quote_literal s')
  end.

(** [label]: the text of a term and the binding it uses; [a] for
    [rdf:type] as a verb, [()] for [rdf:nil]. *)
Definition label (n : Node) (verb : bool)
    : option (string * list (string * string)) :=
  match n with
  | IRI v =>
      if verb && String.eqb v RDF_type then Some ("a", [])
      else
        match getQName v verb with
        | None => None
        | Some (Some (q, b)) =>
            Some (if String.eqb v RDF_nil then "()" else q, [b])
        | Some None =>
            Some (if String.eqb v RDF_nil then "()" else "<" ++ v ++ ">", [])
        end
  | Lit l lang None =>
      let quoted := dquote ++ quote_literal l ++ dquote in
      match lang with
      | None => Some (quoted, [])
      | Some tag => Some (quoted ++ "@" ++ tag, [])
      end
  | Lit _ _ (Some _) | Blank _ => None
  end.

Definition indentString : string := "    ".

(** [objectList]: the first object after a space, the others on lines
    of their own, one level deeper. *)
Definition objectList (labels : list string) : string :=
  match labels with
  | [] => ""
  | [o] => " " ++ o
  | o :: more =>
      " " ++ o
      ++ concat_text
           (map (fun o' => "," ++ newline ++ indentString ++ indentString ++ o')
              more)
  end.

(** All of a list, or nothing. *)
Fixpoint all_some {A} (l : list (option A)) : option (list A) :=
  match l with
  | [] => Some []
  | x :: l' =>
      match x, all_some l' with
      | Some a, Some r => Some (a :: r)
      | _, _ => None
      end
  end.

Definition labels (ns : list Node) (verb : bool)
    : option (list string * list (string * string)) :=
  match all_some (map (fun n => label n verb) ns) with
  | Some l => Some (map fst l, concat (map snd l))
  | None => None
  end.

(** [predicateList]: the first verb on the line of the subject, the
    others on lines of their own after a semicolon. *)
Definition predicateList (props : list (Node * list Node))
    : option (string * list (string * string)) :=
  match all_some
          (map (fun '(p, os) =>
                  match label p true, labels os false with
                  | Some (v, b), Some (ol, bs) => Some (v ++ objectList ol, (b ++ bs)%list)
                  | _, _ => None
                  end) props) with
  | None => None
  | Some [] => Some ("", [])
  | Some ((first, b) :: more) =>
      Some (" " ++ first
            ++ concat_text
                 (map (fun x => " ;" ++ newline ++ indentString ++ fst x) more),
            (b ++ concat (map snd more))%list)
  end.

(** [statement]: an empty line, the subject, its predicates, the dot. *)
Definition statement (ts : list Triple) (s : Node)
    : option (string * list (string * string)) :=
  match label s false, predicateList (properties ts s) with
  | Some (sl, b), Some (pl, bs) =>
      Some (newline ++ sl ++ pl ++ " ." ++ newline, (b ++ bs)%list)
  | _, _ => None
  end.

(** [startDocument]: the bindings in use, ordered by prefix. *)
Definition startDocument (used : list (string * string)) : string :=
  concat_text
    (map (fun '(p, ns) => "@prefix " ++ p ++ ": <" ++ ns ++ "> ." ++ newline)
       (sort (fun a b => String.leb (fst a) (fst b)) (remove_dups used))).

(** [TurtleSerializer.serialize]: the text for the triples of a store;
    nothing where the model does not reach. *)
Definition serialize (ts : list Triple) : option string :=
  if forallb covered ts
  then
    match all_some (map (statement ts) (orderSubjects ts)) with
    | Some l =>
        Some (startDocument (concat (map snd l))
              ++ concat_text (map fst l) ++ newline)
    | None => None
    end
  else None.

(** A rendering whose Turtle plugin is the model, wherever the model
    reaches and the encoding is UTF-8; everything else is left to
    [R]. *)
Definition install (R : rdflib.Rendering) : rdflib.Rendering := {|
  rdflib.render := fun serializer s encoding =>
    match serializer, String.eqb encoding "utf-8", serialize (elements s) with
    | rdflib.TurtleSerializer, true, Some text => String.list_byte_of_string text
    | _, _, _ => @rdflib.render R serializer s encoding
    end;
  rdflib.decode := fun encoding b =>
    if String.eqb encoding "utf-8" then String.string_of_list_byte b
    else @rdflib.decode R encoding b
|}.

(** The model on its own: no other plugin writes anything, bytes are
    text in UTF-8. *)
Definition alone : rdflib.Rendering :=
  install {|
    rdflib.render := fun _ _ _ => [];
    rdflib.decode := fun _ b => String.string_of_list_byte b
  |}.

End turtle_plugin.


(** ** A reader of Turtle

    A recursive-descent reader for the part of the W3C Turtle grammar
    without relative IRIs, numeric escapes, blank node property lists and
    collections: prefix directives in both spellings, comments, the
    keyword [a], predicate lists with [;], object lists with [,], IRIs
    in angle brackets, prefixed names, labelled blank nodes, strings in
    all four quotations with a language tag or a datatype, numbers and
    booleans.  Text outside that part is refused, never misread. *)

Module turtle_reader.

Definition char (n : nat) (c : ascii) : bool := Nat.eqb (code c) n.

Definition is_ws (c : ascii) : bool :=
  char 32 c || char 9 c || char 10 c || char 13 c.

Definition is_eol (c : ascii) : bool := char 10 c || char 13 c.

(** [PN_CHARS] within ASCII, and the dot, which a name may hold but not
    end in. *)
Definition is_pn_char (c : ascii) : bool :=
  is_letter c || is_digit c || char 95 c || char 45 c.

Definition XSD : string := "http://www.w3.org/2001/XMLSchema#".
Definition RDF_type : string := "http://www.w3.org/1999/02/22-rdf-syntax-ns#type".

(** White space and comments; [semis] says whether semicolons are
    skipped too, [seen] whether one was. *)
Fixpoint skip (semis seen comment : bool) (s : string) : bool * string :=
  match s with
  | EmptyString => (seen, EmptyString)
  | String c r =>
      if comment then skip semis seen (negb (is_eol c)) r
      else if is_ws c then skip semis seen false r
      else if char 35 c then skip semis seen true r
      else if semis && char 59 c then skip semis true false r
      else (seen, s)
  end.

Definition ws (s : string) : string := snd (skip false false false s).

Fixpoint span (p : ascii -> bool) (s : string) : string * string :=
  match s with
  | EmptyString => (EmptyString, EmptyString)
  | String c r =>
      if p c then let '(a, b) := span p r in (String c a, b)
      else (EmptyString, s)
  end.

Fixpoint expect (k s : string) : option string :=
  match k with
  | EmptyString => Some s
  | String c k' =>
      match s with
      | String c' s' => if Ascii.eqb c c' then expect k' s' else None
      | EmptyString => None
      end
  end.

(** A name read greedily gives its trailing dots back. *)
Fixpoint trailing_dots (s : string) : string * string :=
  match s with
  | EmptyString => (EmptyString, EmptyString)
  | String c r =>
      let '(a, dots) := trailing_dots r in
      match a with
      | EmptyString => if char 46 c then (EmptyString, String c dots)
                       else (String c EmptyString, dots)
      | _ => (String c a, dots)
      end
  end.

(** [IRIREF] after its opening bracket. *)
Fixpoint iriref (s : string) : option (string * string) :=
  match s with
  | EmptyString => None
  | String c r =>
      if char 62 c then Some (EmptyString, r)
      else if Nat.leb (code c) 32
              || bool_decide (code c ∈ [60; 34; 123; 125; 124; 94; 96; 92])
      then None
      else '(a, b) ← iriref r; Some (String c a, b)
  end.

(** An IRI with a scheme. *)
Definition absolute (v : string) : bool :=
  let '(scheme, rest) :=
    span (fun c => is_letter c || is_digit c || char 43 c || char 45 c || char 46 c) v in
  match scheme, rest with
  | String c _, String colon _ => is_letter c && char 58 colon
  | _, _ => false
  end.

Definition absolute_iriref (s : string) : option (string * string) :=
  '(v, r) ← iriref s;
  if absolute v then Some (v, r) else None.

(** [PN_LOCAL]: name characters, colons, dots inside, percent codes as
    they are, and escaped punctuation without its backslash. *)
Fixpoint local (s : string) : string * string :=
  match s with
  | EmptyString => (EmptyString, EmptyString)
  | String c r =>
      if is_pn_char c || char 58 c || char 46 c || char 37 c
      then let '(a, b) := local r in (String c a, b)
      else if char 92 c
      then match r with
           | String e r' =>
               if bool_decide (code e ∈ [95; 126; 46; 45; 33; 36; 38; 39; 40; 41;
                                         42; 43; 44; 59; 61; 47; 63; 35; 64; 37])
               then let '(a, b) := local r' in (String e a, b)
               else (EmptyString, s)
           | EmptyString => (EmptyString, s)
           end
      else (EmptyString, s)
  end.

Fixpoint lookup (p : string) (pm : list (string * string)) : option string :=
  match pm with
  | [] => None
  | (q, ns) :: pm' => if String.eqb p q then Some ns else lookup p pm'
  end.

(** A prefixed name: the prefix up to the colon, then the local part. *)
Definition prefixed (pm : list (string * string)) (s : string)
    : option (string * string) :=
  let '(p, r) := span (fun c => is_pn_char c || char 46 c) s in
  r1 ← expect ":" r;
  ns ← lookup p pm;
  let '(greedy, r2) := local r1 in
  let '(name, dots) := trailing_dots greedy in
  Some (ns ++ name, dots ++ r2).

Definition iri (pm : list (string * string)) (s : string)
    : option (string * string) :=
  match s with
  | String c r => if char 60 c then absolute_iriref r else prefixed pm s
  | EmptyString => None
  end.

(** [BLANK_NODE_LABEL] after [_:]. *)
Definition blank_label (s : string) : option (string * string) :=
  let '(greedy, r) := span (fun c => is_pn_char c || char 46 c) s in
  let '(name, dots) := trailing_dots greedy in
  match name with
  | EmptyString => None
  | _ => Some (name, dots ++ r)
  end.

(** [ECHAR]. *)
Definition echar (c : ascii) : option ascii :=
  if char 116 c then Some (Ascii.ascii_of_nat 9)
  else if char 98 c then Some (Ascii.ascii_of_nat 8)
  else if char 110 c then Some (Ascii.ascii_of_nat 10)
  else if char 114 c then Some (Ascii.ascii_of_nat 13)
  else if char 102 c then Some (Ascii.ascii_of_nat 12)
  else if char 34 c || char 39 c || char 92 c then Some c
  else None.

(** A string in single quotation, after the opening quote [q]. *)
Fixpoint short_string (q : ascii) (s : string) : option (string * string) :=
  match s with
  | EmptyString => None
  | String c r =>
      if Ascii.eqb c q then Some (EmptyString, r)
      else if is_eol c then None
      else if char 92 c
      then match r with
           | String e r' =>
               ch ← echar e;
               '(a, b) ← short_string q r';
               Some (String ch a, b)
           | EmptyString => None
           end
      else '(a, b) ← short_string q r; Some (String c a, b)
  end.

(** A string in triple quotation, after the three opening quotes. *)
Fixpoint long_string (q : ascii) (s : string) : option (string * string) :=
  match s with
  | EmptyString => None
  | String c r =>
      if char 92 c
      then match r with
           | String e r' =>
               ch ← echar e;
               '(a, b) ← long_string q r';
               Some (String ch a, b)
           | EmptyString => None
           end
      else
        match r with
        | String c1 (String c2 r2) =>
            if Ascii.eqb c q && Ascii.eqb c1 q && Ascii.eqb c2 q
            then Some (EmptyString, r2)
            else '(a, b) ← long_string q r; Some (String c a, b)
        | _ => '(a, b) ← long_string q r; Some (String c a, b)
        end
  end.

Definition quoted (s : string) : option (string * string) :=
  match s with
  | String q (String c1 (String c2 r)) =>
      if Ascii.eqb c1 q && Ascii.eqb c2 q then long_string q r
      else short_string q (String c1 (String c2 r))
  | String q r => short_string q r
  | EmptyString => None
  end.

(** [LANGTAG] after the at sign. *)
Definition langtag (s : string) : option (string * string) :=
  let '(tag, r) := span (fun c => is_letter c || is_digit c || char 45 c) s in
  match tag with
  | String c _ => if is_letter c then Some (tag, r) else None
  | EmptyString => None
  end.

(** A string with what follows its closing quote. *)
Definition string_literal (pm : list (string * string)) (s : string)
    : option (Node * string) :=
  '(l, r) ← quoted s;
  match r with
  | String c r' =>
      if char 64 c then '(tag, r2) ← langtag r'; Some (Lit l (Some tag) None, r2)
      else if char 94 c
      then r2 ← expect "^" r'; '(dt, r3) ← iri pm r2; Some (Lit l None (Some dt), r3)
      else Some (Lit l None None, r)
  | EmptyString => Some (Lit l None None, r)
  end.

Definition sign (s : string) : string * string :=
  match s with
  | String c r => if char 43 c || char 45 c then (String c EmptyString, r)
                  else (EmptyString, s)
  | EmptyString => (EmptyString, s)
  end.

(** [INTEGER], [DECIMAL] and [DOUBLE]. *)
Definition number (s : string) : option (Node * string) :=
  let '(sg, r0) := sign s in
  let '(int, r1) := span is_digit r0 in
  let '(frac, r2) :=
    match r1 with
    | String dot (String d r) =>
        if char 46 dot && is_digit d
        then let '(ds, r') := span is_digit (String d r) in (String dot ds, r')
        else (EmptyString, r1)
    | _ => (EmptyString, r1)
    end in
  let '(exp, r3) :=
    match r2 with
    | String e r =>
        if char 101 e || char 69 e
        then let '(esg, ra) := sign r in
             let '(eds, rb) := span is_digit ra in
             match eds with
             | EmptyString => (EmptyString, r2)
             | _ => (String e (esg ++ eds), rb)
             end
        else (EmptyString, r2)
    | EmptyString => (EmptyString, r2)
    end in
  match int, frac, exp with
  | EmptyString, EmptyString, _ => None
  | _, _, String _ _ => Some (Lit (sg ++ int ++ frac ++ exp) None (Some (XSD ++ "double")), r3)
  | _, String _ _, EmptyString => Some (Lit (sg ++ int ++ frac) None (Some (XSD ++ "decimal")), r3)
  | _, EmptyString, EmptyString => Some (Lit (sg ++ int) None (Some (XSD ++ "integer")), r3)
  end.

(** A keyword is over where no name character follows. *)
Definition keyword (k s : string) : option string :=
  r ← expect k s;
  match r with
  | String c _ => if is_pn_char c || char 58 c then None else Some r
  | EmptyString => Some r
  end.

Definition subject (pm : list (string * string)) (s : string)
    : option (Node * string) :=
  match s with
  | String c r =>
      if char 95 c
      then r1 ← expect ":" r; '(l, r2) ← blank_label r1; Some (Blank l, r2)
      else '(v, r1) ← iri pm s; Some (IRI v, r1)
  | EmptyString => None
  end.

Definition verb (pm : list (string * string)) (s : string)
    : option (Node * string) :=
  match keyword "a" s with
  | Some r => Some (IRI RDF_type, r)
  | None => '(v, r) ← iri pm s; Some (IRI v, r)
  end.

Definition object (pm : list (string * string)) (s : string)
    : option (Node * string) :=
  match s with
  | EmptyString => None
  | String c r =>
      if char 34 c || char 39 c then string_literal pm s
      else if is_digit c || char 43 c || char 45 c || char 46 c then number s
      else if char 91 c || char 40 c then None
      else
        match keyword "true" s, keyword "false" s with
        | Some r', _ => Some (Lit "true" None (Some (XSD ++ "boolean")), r')
        | _, Some r' => Some (Lit "false" None (Some (XSD ++ "boolean")), r')
        | None, None => subject pm s
        end
  end.

(** [objectList]. *)
Fixpoint objects (fuel : nat) (pm : list (string * string)) (s : string)
    : option (list Node * string) :=
  match fuel with
  | O => None
  | S fuel' =>
      '(o, r) ← object pm (ws s);
      match ws r with
      | String c r' =>
          if char 44 c
          then '(os, r2) ← objects fuel' pm r'; Some (o :: os, r2)
          else Some ([o], String c r')
      | EmptyString => Some ([o], EmptyString)
      end
  end.

(** [predicateObjectList]: after a semicolon another verb may follow, or
    nothing. *)
Fixpoint predicates (fuel : nat) (pm : list (string * string)) (s : string)
    : option (list (Node * Node) * string) :=
  match fuel with
  | O => None
  | S fuel' =>
      '(p, r) ← verb pm (ws s);
      '(os, r1) ← objects fuel' pm r;
      let here := map (fun o => (p, o)) os in
      let '(semi, r2) := skip true false false r1 in
      match semi, r2 with
      | true, String c _ =>
          if char 46 c then Some (here, r2)
          else '(more, r3) ← predicates fuel' pm r2; Some ((here ++ more)%list, r3)
      | _, _ => Some (here, r2)
      end
  end.

(** A prefix directive after its keyword: the prefix, the colon, the
    namespace. *)
Definition binding (s : string) : option ((string * string) * string) :=
  let '(p, r) := span (fun c => is_pn_char c || char 46 c) (ws s) in
  r1 ← expect ":" r;
  r2 ← expect "<" (ws r1);
  '(ns, r3) ← absolute_iriref r2;
  Some ((p, ns), r3).

Definition lower (c : ascii) : ascii :=
  if Nat.leb 65 (code c) && Nat.leb (code c) 90
  then Ascii.ascii_of_nat (code c + 32) else c.

Fixpoint lowered (s : string) : string :=
  match s with
  | EmptyString => EmptyString
  | String c r => String (lower c) (lowered r)
  end.

(** The word a statement starts with, when white space follows it. *)
Definition leading_word (s : string) : string * string :=
  let '(w, r) := span (fun c => is_letter c || char 64 c) s in
  match r with
  | String c _ => if is_ws c then (w, r) else (EmptyString, s)
  | EmptyString => (EmptyString, s)
  end.

(** [turtleDoc]. *)
Fixpoint statements (fuel : nat) (pm : list (string * string))
    (acc : list Triple) (s : string) : option (list Triple) :=
  match ws s with
  | EmptyString => Some acc
  | String c r =>
      match fuel with
      | O => None
      | S fuel' =>
          let '(w, r0) := leading_word (String c r) in
          if String.eqb w "@prefix"
          then '(b, r1) ← binding r0;
               r2 ← expect "." (ws r1);
               statements fuel' (b :: pm) acc r2
          else if String.eqb (lowered w) "prefix"
          then '(b, r1) ← binding r0;
               statements fuel' (b :: pm) acc r1
          else if String.eqb w "@base" || String.eqb (lowered w) "base"
          then None
          else
            '(subj, r1) ← subject pm (String c r);
            '(pos, r2) ← predicates fuel' pm r1;
            r3 ← expect "." (ws r2);
            statements fuel' pm
              (acc ++ map (fun po : Node * Node => (subj, po.1, po.2)) pos)%list r3
      end
  end.

Definition parse (text : string) : option (gset Triple) :=
  list_to_set <$> statements (S (String.length text)) [] [] text.

End turtle_reader.

(** The text [g.serialize()] is expected to return for the three
    triples. *)
Definition people_in_turtle : string :=
  "@prefix foaf: <http://xmlns.com/foaf/0.1/> ." ++ newline
  ++ newline
  ++ "<http://example.org/alice> foaf:knows <http://example.org/bob> ;" ++ newline
  ++ "    foaf:name " ++ turtle_plugin.dquote ++ "Alice" ++ turtle_plugin.dquote
  ++ " ." ++ newline
  ++ newline
  ++ "<http://example.org/bob> foaf:name " ++ turtle_plugin.dquote ++ "Bob"
  ++ turtle_plugin.dquote ++ " ." ++ newline
  ++ newline.

(** ** Running the library calls *)

Section steps.

Context `{np.LinAlg} `{rdflib.Rendering}.

Lemma bind_returns {A B} (m : M A) (k : A -> M B) w a w' :
  m w = Returns a w' -> bind m k w = k a w'.
Proof. unfold bind. by intros ->. Qed.

Lemma with_heap_id w : with_heap w (heap w) = w.
Proof. by destruct w. Qed.

Lemma Graph_fresh w :
  rdflib.Graph w = Returns (length (heap w)) (with_heap w (heap w ++ [GraphObj ∅])).
Proof. reflexivity. Qed.

Lemma getattr_FOAF_name w :
  rdflib.getattr rdflib.namespace.FOAF "name" w = Returns foaf_name w.
Proof. reflexivity. Qed.

Lemma getattr_FOAF_knows w :
  rdflib.getattr rdflib.namespace.FOAF "knows" w = Returns foaf_knows w.
Proof. reflexivity. Qed.

Lemma URIRef_alice w :
  rdflib.URIRef "http://example.org/alice" w = Returns alice w.
Proof. reflexivity. Qed.

Lemma URIRef_bob w :
  rdflib.URIRef "http://example.org/bob" w = Returns bob w.
Proof. reflexivity. Qed.

Lemma store_of_graph w g s :
  heap w !! g = Some (GraphObj s) -> rdflib.store_of g w = Returns s w.
Proof. intros Hg. unfold rdflib.store_of, bind, deref. by rewrite Hg. Qed.

(** Adding to a graph replaces its store by the union with the new
    triple and touches nothing else. *)
Lemma add_run w g s t :
  heap w !! g = Some (GraphObj s) ->
  rdflib.add g t w
  = Returns g (with_heap w (<[g := GraphObj ({[ t ]} ∪ s)]> (heap w))).
Proof.
  intros Hg. unfold rdflib.add.
  rewrite (bind_returns _ _ _ _ _ (store_of_graph _ _ _ Hg)).
  reflexivity.
Qed.

Lemma add_lookup w g s t :
  heap w !! g = Some (GraphObj s) ->
  heap (with_heap w (<[g := GraphObj ({[ t ]} ∪ s)]> (heap w))) !! g
  = Some (GraphObj ({[ t ]} ∪ s)).
Proof.
  intros Hg. simpl. apply list_lookup_insert_eq.
  by apply lookup_lt_Some in Hg.
Qed.

Lemma people_statements : forallb rdflib.statement (elements people) = true.
Proof. vm_compute. reflexivity. Qed.

Lemma serialize_run w g s :
  heap w !! g = Some (GraphObj s) ->
  forallb rdflib.statement (elements s) = true ->
  rdflib.serialize g None "turtle" None w
  = Returns
      (PyStr (rdflib.decode "utf-8" (rdflib.render rdflib.TurtleSerializer s "utf-8")))
      w.
Proof.
  intros Hg Hs. unfold rdflib.serialize.
  change (rdflib.plugin_get "turtle") with (@ret rdflib.Serializer rdflib.TurtleSerializer).
  unfold bind at 1. unfold ret at 1.
  rewrite (bind_returns _ _ _ _ _ (store_of_graph _ _ _ Hg)).
  unfold bind, rdflib.run_serializer. by rewrite Hs.
Qed.

End steps.

(** ** Running the two functions *)

Section runs.

Context `{np.LinAlg} `{rdflib.Rendering}.

Lemma String_app_assoc (a b c : string) : (a ++ b) ++ c = a ++ (b ++ c).
Proof.
  induction a as [|x a IH]; [reflexivity |].
  exact (f_equal (String x) IH).
Qed.

Lemma calc_det_run w :
  calc_det w
  = Returns PyNone
      (printed (with_heap w (heap w ++ [ndarray (Shape2 2 2) [1; 2; 3; 4]%Z]))
               (report_line ++ newline)).
Proof.
  unfold calc_det.
  assert (Harr : np.array matrix w
            = Returns (length (heap w))
                (with_heap w (heap w ++ [ndarray (Shape2 2 2) [1; 2; 3; 4]%Z])))
    by reflexivity.
  rewrite (bind_returns _ _ _ _ _ Harr).
  assert (Hdet : np.linalg.det (length (heap w))
                   (with_heap w (heap w ++ [ndarray (Shape2 2 2) [1; 2; 3; 4]%Z]))
            = Returns determinant
                (with_heap w (heap w ++ [ndarray (Shape2 2 2) [1; 2; 3; 4]%Z]))).
  { unfold np.linalg.det, bind, deref. simpl heap.
    by rewrite list_lookup_middle. }
  rewrite (bind_returns _ _ _ _ _ Hdet).
  unfold bind, print, bind, write_stdout, ret, printed, with_heap. simpl.
  by rewrite String_app_assoc.
Qed.

Lemma serialize_graph_run w :
  serialize_graph w
  = Returns (PyStr (turtle people)) (with_heap w (heap w ++ [GraphObj people])).
Proof.
  unfold serialize_graph.
  rewrite (bind_returns _ _ _ _ _ (Graph_fresh w)).
  set (g := length (heap w)).
  rewrite (bind_returns _ _ _ _ _ (URIRef_alice _)).
  rewrite (bind_returns _ _ _ _ _ (URIRef_bob _)).
  rewrite (bind_returns _ _ _ _ _ (getattr_FOAF_name _)).
  unfold rdflib.Literal at 1. unfold bind at 1, ret at 1.
  assert (H0g : heap (with_heap w (heap w ++ [GraphObj ∅])) !! g
                = Some (GraphObj ∅))
    by (simpl; by apply list_lookup_middle).
  rewrite (bind_returns _ _ _ _ _ (add_run _ _ _ alice_name H0g)).
  pose proof (add_lookup _ _ _ alice_name H0g) as H1g.
  rewrite (bind_returns _ _ _ _ _ (getattr_FOAF_name _)).
  unfold rdflib.Literal at 1. unfold bind at 1, ret at 1.
  rewrite (bind_returns _ _ _ _ _ (add_run _ _ _ bob_name H1g)).
  pose proof (add_lookup _ _ _ bob_name H1g) as H2g.
  rewrite (bind_returns _ _ _ _ _ (getattr_FOAF_knows _)).
  rewrite (bind_returns _ _ _ _ _ (add_run _ _ _ alice_knows_bob H2g)).
  pose proof (add_lookup _ _ _ alice_knows_bob H2g) as H3g.
  rewrite (serialize_run _ _ _ H3g people_statements).
  unfold turtle, with_heap. simpl. f_equal. f_equal.
  rewrite !list_insert_insert_eq.
  unfold g. rewrite insert_app_r_alt by lia.
  by rewrite Nat.sub_diag.
Qed.

End runs.


(** ** The library model on small inputs *)

Section examples.

Context `{np.LinAlg} `{rdflib.Rendering}.

Example det_of_a_row_vector :
  (a <- np.array [[1; 2; 3]]%Z ;; np.linalg.det a) boot
  = Raises (LinAlgError "Last 2 dimensions of the array must be square")
      (with_heap boot [ndarray (Shape2 1 3) [1; 2; 3]%Z]).
Proof. reflexivity. Qed.

Example array_of_ragged_rows :
  np.array [[1; 2]; [3]]%Z boot = Raises (ValueError "inhomogeneous shape") boot.
Proof. reflexivity. Qed.

Example FOAF_has_no_surnom :
  rdflib.getattr rdflib.namespace.FOAF "surnom" boot
  = Raises (AttributeError
      "term 'surnom' not in namespace 'http://xmlns.com/foaf/0.1/'") boot.
Proof. reflexivity. Qed.

Example URIRef_with_a_space_warns :
  rdflib.URIRef "http://example.org/a b" boot
  = Returns (IRI "http://example.org/a b")
      (mkWorld ""
         ("http://example.org/a b does not look like a valid URI, trying to serialize this will break."
          ++ newline) ∅ []).
Proof. reflexivity. Qed.

Example unknown_format_has_no_plugin :
  (g <- rdflib.Graph ;; rdflib.serialize g None "yaml" None) boot
  = Raises (PluginException "No plugin registered for yaml")
      (with_heap boot [GraphObj ∅]).
Proof. reflexivity. Qed.

Example serialize_an_IRI_with_a_space :
  (g <- rdflib.Graph ;;
   u <- rdflib.URIRef "a b" ;;
   rdflib.add g (u, u, u) ;;;
   rdflib.serialize g None "turtle" None) boot
  = Raises (Exception
      "does not look like a valid URI, I cannot serialize this as N3/Turtle")
      (mkWorld ""
         ("a b does not look like a valid URI, trying to serialize this will break."
          ++ newline) ∅ [GraphObj {[ (IRI "a b", IRI "a b", IRI "a b") ]}]).
Proof. vm_compute. reflexivity. Qed.

Example serialize_with_encoding_gives_bytes :
  (g <- rdflib.Graph ;; rdflib.serialize g None "turtle" (Some "latin-1")) boot
  = Returns (PyBytes (rdflib.render rdflib.TurtleSerializer ∅ "latin-1"))
      (with_heap boot [GraphObj ∅]).
Proof. reflexivity. Qed.

Example serialize_to_a_file_returns_the_graph :
  (g <- rdflib.Graph ;; rdflib.serialize g (Some "out.ttl") "turtle" None) boot
  = Returns (PyRef 0)
      (mkWorld "" ""
         {[ "out.ttl" := rdflib.render rdflib.TurtleSerializer ∅ "utf-8" ]}
         [GraphObj ∅]).
Proof. reflexivity. Qed.

End examples.

Example exact_determinant : @determinant exact.linalg = (-2)%Z.
Proof. reflexivity. Qed.

Example exact_report_line : @report_line exact.linalg = "Determinant is -2".
Proof. reflexivity. Qed.

(** The plugin and the reader on a graph with a type, two objects of one
    predicate and a language tag. *)
Example a_person_in_turtle :
  turtle_plugin.serialize
    [ (IRI "http://example.org/a", IRI turtle_plugin.RDF_type,
       IRI "http://xmlns.com/foaf/0.1/Person");
      (IRI "http://example.org/a", IRI "http://xmlns.com/foaf/0.1/name",
       Lit "A" None None);
      (IRI "http://example.org/a", IRI "http://xmlns.com/foaf/0.1/name",
       Lit "B" (Some "en") None) ]
  = Some ("@prefix foaf: <http://xmlns.com/foaf/0.1/> ." ++ newline
          ++ newline
          ++ "<http://example.org/a> a foaf:Person ;" ++ newline
          ++ "    foaf:name " ++ turtle_plugin.dquote ++ "A" ++ turtle_plugin.dquote
          ++ "," ++ newline
          ++ "        " ++ turtle_plugin.dquote ++ "B" ++ turtle_plugin.dquote
          ++ "@en ." ++ newline
          ++ newline).
Proof. vm_compute. reflexivity. Qed.

Example the_empty_graph_in_turtle : turtle_plugin.serialize [] = Some newline.
Proof. reflexivity. Qed.

Example an_unbound_predicate_is_not_modelled :
  turtle_plugin.serialize
    [ (IRI "http://example.org/a", IRI "http://example.org/p",
       IRI "http://example.org/b") ]
  = None.
Proof. vm_compute. reflexivity. Qed.

Example reading_a_document :
  turtle_reader.statements 200 [] []
    ("# people" ++ newline
     ++ "PREFIX ex: <http://example.org/>" ++ newline
     ++ "@prefix foaf: <http://xmlns.com/foaf/0.1/>." ++ newline
     ++ "ex:a a foaf:Person; foaf:age 42, 4.5 ; foaf:nick 'x'@en-GB ; ." ++ newline
     ++ "<http://example.org/b> <http://example.org/p> _:b1, true .")
  = Some
      [ (IRI "http://example.org/a", IRI turtle_reader.RDF_type,
         IRI "http://xmlns.com/foaf/0.1/Person");
        (IRI "http://example.org/a", IRI "http://xmlns.com/foaf/0.1/age",
         Lit "42" None (Some "http://www.w3.org/2001/XMLSchema#integer"));
        (IRI "http://example.org/a", IRI "http://xmlns.com/foaf/0.1/age",
         Lit "4.5" None (Some "http://www.w3.org/2001/XMLSchema#decimal"));
        (IRI "http://example.org/a", IRI "http://xmlns.com/foaf/0.1/nick",
         Lit "x" (Some "en-GB") None);
        (IRI "http://example.org/b", IRI "http://example.org/p", Blank "b1");
        (IRI "http://example.org/b", IRI "http://example.org/p",
         Lit "true" None (Some "http://www.w3.org/2001/XMLSchema#boolean")) ].
Proof. vm_compute. reflexivity. Qed.

(** The same three triples in another layout, one statement per line. *)
Example reading_people_line_by_line :
  turtle_reader.statements 300 [] []
    ("<http://example.org/alice> <http://xmlns.com/foaf/0.1/name> "
     ++ turtle_plugin.dquote ++ "Alice" ++ turtle_plugin.dquote ++ " ." ++ newline
     ++ "<http://example.org/bob> <http://xmlns.com/foaf/0.1/name> "
     ++ turtle_plugin.dquote ++ "Bob" ++ turtle_plugin.dquote ++ " ." ++ newline
     ++ "<http://example.org/alice> <http://xmlns.com/foaf/0.1/knows> "
     ++ "<http://example.org/bob> ." ++ newline)
  = Some [alice_name; bob_name; alice_knows_bob].
Proof. vm_compute. reflexivity. Qed.

Example reading_refuses_a_relative_IRI :
  turtle_reader.statements 20 [] [] "<a> <b> <c> ." = None.
Proof. reflexivity. Qed.

Example reading_refuses_a_property_list :
  turtle_reader.statements 40 [] [] "<http://a/a> <http://a/b> [ ] ." = None.
Proof. vm_compute. reflexivity. Qed.


(** ** Sequences of additions *)

Section additions.

Lemma add_present w g s t :
  heap w !! g = Some (GraphObj s) -> t ∈ s -> rdflib.add g t w = Returns g w.
Proof.
  intros Hg Ht. rewrite (add_run w g s t Hg).
  replace ({[ t ]} ∪ s) with s by set_solver.
  rewrite list_insert_id by done. by rewrite with_heap_id.
Qed.

(** After a sequence of additions the store holds what it held and the
    members of the sequence; everything else in the state is as before. *)
Lemma add_all_run ts : forall w g s,
  heap w !! g = Some (GraphObj s) ->
  add_all g ts w
  = Returns tt (with_heap w (<[g := GraphObj (list_to_set ts ∪ s)]> (heap w))).
Proof.
  induction ts as [|t ts IH]; intros w g s Hg; simpl.
  - unfold ret. replace (∅ ∪ s) with s by set_solver.
    rewrite list_insert_id by done. by rewrite with_heap_id.
  - rewrite (bind_returns _ _ _ _ _ (add_run w g s t Hg)).
    rewrite (IH _ g ({[ t ]} ∪ s)) by (by apply add_lookup).
    unfold with_heap. simpl. rewrite list_insert_insert_eq.
    do 4 f_equal. set_solver.
Qed.

Lemma fresh_graph_filled w ts :
  (g <- rdflib.Graph ;; add_all g ts ;;; ret g) w
  = Returns (length (heap w)) (with_heap w (heap w ++ [GraphObj (list_to_set ts)])).
Proof.
  rewrite (bind_returns _ _ _ _ _ (Graph_fresh w)).
  assert (Hg : heap (with_heap w (heap w ++ [GraphObj ∅])) !! length (heap w)
               = Some (GraphObj ∅))
    by (simpl; by apply list_lookup_middle).
  rewrite (bind_returns _ _ _ _ _ (add_all_run ts _ _ _ Hg)).
  unfold ret, with_heap. simpl. do 2 f_equal.
  rewrite insert_app_r_alt by lia. rewrite Nat.sub_diag. simpl.
  do 3 f_equal. set_solver.
Qed.

Lemma people_listed :
  people = list_to_set [alice_name; bob_name; alice_knows_bob].
Proof. unfold people. set_solver. Qed.

Lemma people_size : size people = 3.
Proof.
  rewrite people_listed. apply (size_list_to_set (C := gset Triple)).
  repeat constructor; set_solver.
Qed.

Lemma size_list_to_set_le (ts : list Triple) :
  size (list_to_set ts : gset Triple) <= length ts.
Proof.
  induction ts as [|t ts IH]; simpl.
  - done.
  - rewrite size_union_alt, size_singleton.
    assert (size (list_to_set ts ∖ {[ t ]} : gset Triple)
            <= size (list_to_set ts : gset Triple))
      by (apply subseteq_size; set_solver).
    lia.
Qed.

End additions.

(** ** The graph [serialize_graph] builds *)

Section graph_claims.

Context `{rdflib.Rendering}.

(** C2.  Every call of [serialize_graph] builds a graph, at a fresh
    address, whose store holds exactly three triples:
    (http://example.org/alice, http://xmlns.com/foaf/0.1/name, "Alice"),
    (http://example.org/bob, http://xmlns.com/foaf/0.1/name, "Bob") and
    (http://example.org/alice, http://xmlns.com/foaf/0.1/knows,
    http://example.org/bob); the two literals carry neither a language tag
    nor a datatype; and the text returned is the rendering of that
    store. *)
Theorem serialize_graph_three_triples (w : World) :
  exists text w' s,
    serialize_graph w = Returns (PyStr text) w' /\
    heap w !! length (heap w) = None /\
    heap w' !! length (heap w) = Some (GraphObj s) /\
    text = turtle s /\
    forall t : Triple,
      t ∈ s <->
      t = (IRI "http://example.org/alice",
           IRI "http://xmlns.com/foaf/0.1/name", Lit "Alice" None None) \/
      t = (IRI "http://example.org/bob",
           IRI "http://xmlns.com/foaf/0.1/name", Lit "Bob" None None) \/
      t = (IRI "http://example.org/alice",
           IRI "http://xmlns.com/foaf/0.1/knows", IRI "http://example.org/bob").
Proof.
  exists (turtle people), (with_heap w (heap w ++ [GraphObj people])), people.
  split; [apply serialize_graph_run |].
  split; [apply lookup_ge_None_2; lia |].
  split; [simpl; by apply list_lookup_middle |].
  split; [reflexivity |].
  intros t. unfold people, alice_name, bob_name, alice_knows_bob,
    alice, bob, foaf_name, foaf_knows.
  set_solver.
Qed.

End graph_claims.

(** C3.  What [serialize_graph] returns is the text rdflib's Turtle
    plugin, the one [g.serialize()] selects by default, writes for the
    graph of the three triples: a prefix line for FOAF, the two statements
    about alice joined by a semicolon, the statement about bob.  A reader
    of Turtle reads exactly the three triples back from that text. *)
Theorem serialize_graph_round_trip (R : rdflib.Rendering) (w : World) :
  exists text w',
    @serialize_graph (turtle_plugin.install R) w = Returns (PyStr text) w' /\
    turtle_plugin.serialize
      (elements ({[ alice_name; bob_name; alice_knows_bob ]} : gset Triple))
      = Some text /\
    text = people_in_turtle /\
    turtle_reader.parse text = Some {[ alice_name; bob_name; alice_knows_bob ]}.
Proof.
  assert (Hp : people = {[ alice_name; bob_name; alice_knows_bob ]})
    by (unfold people; set_solver).
  rewrite <- Hp.
  assert (Hs : turtle_plugin.serialize (elements people) = Some people_in_turtle)
    by (vm_compute; reflexivity).
  assert (Ht : @turtle (turtle_plugin.install R) people = people_in_turtle).
  { unfold turtle. cbn [rdflib.render rdflib.decode turtle_plugin.install].
    rewrite Hs. change (String.eqb "utf-8" "utf-8") with true. cbn iota.
    apply String.string_of_list_byte_of_string. }
  assert (Hr : turtle_reader.statements (S (String.length people_in_turtle)) [] []
                 people_in_turtle
               = Some [alice_knows_bob; alice_name; bob_name])
    by (vm_compute; reflexivity).
  exists people_in_turtle. eexists.
  split; [rewrite serialize_graph_run, Ht; reflexivity |].
  split; [exact Hs |]. split; [reflexivity |].
  unfold turtle_reader.parse. rewrite Hr. simpl.
  f_equal; unfold people; set_solver.
Qed.

(** ** Set semantics of the graph, constancy of the array *)

Section invariants.

Context `{np.LinAlg} `{rdflib.Rendering}.

(** C4.  A graph is a set of triples.  (1) Whatever sequence of triples
    is added to a fresh graph, and whichever member [t] of the sequence is
    added once more, the second addition changes nothing at all;
    the store has no duplicate, holds the members of the sequence and
    nothing else, and is no larger than the sequence is long.  (2) The
    graph [serialize_graph] leaves behind has exactly three triples, also
    after each of the three is added again.  (3) The array [calc_det]
    builds still is [[1, 2], [3, 4]], as [np.array] made it, when
    [calc_det] returns. *)
Theorem graph_is_a_set_and_array_is_constant :
  (forall (w : World) (before : list Triple) (t : Triple) (after : list Triple),
     exists g w' s,
       (g <- rdflib.Graph ;; add_all g (before ++ t :: after)%list ;;; ret g) w
         = Returns g w' /\
       rdflib.add g t w' = Returns g w' /\
       heap w' !! g = Some (GraphObj s) /\
       NoDup (elements s) /\
       size s <= length (before ++ t :: after)%list /\
       forall x, x ∈ s <-> x ∈ (before ++ t :: after)%list) /\
  (forall w : World,
     exists r w',
       serialize_graph w = Returns r w' /\
       rdflib.len (length (heap w)) w' = Returns 3 w' /\
       (add_all (length (heap w)) [alice_name; bob_name; alice_knows_bob] ;;;
        rdflib.len (length (heap w))) w' = Returns 3 w') /\
  (forall w : World,
     exists a w1 w',
       np.array matrix w = Returns a w1 /\
       calc_det w = Returns PyNone w' /\
       heap w1 !! a = Some (ndarray (Shape2 2 2) [1; 2; 3; 4]%Z) /\
       heap w' !! a = heap w1 !! a).
Proof.
  split; [| split].
  - intros w before t after.
    set (ts := (before ++ t :: after)%list).
    set (w' := with_heap w (heap w ++ [GraphObj (list_to_set ts)])).
    assert (Hg : heap w' !! length (heap w) = Some (GraphObj (list_to_set ts)))
      by (simpl; by apply list_lookup_middle).
    exists (length (heap w)), w', (list_to_set ts).
    split; [apply fresh_graph_filled |].
    split.
    { apply (add_present _ _ _ _ Hg). apply elem_of_list_to_set.
      unfold ts. set_solver. }
    split; [exact Hg |].
    split; [apply NoDup_elements |].
    split.
    + apply size_list_to_set_le.
    + intros x. apply elem_of_list_to_set.
  - intros w. eexists _, _. split; [apply serialize_graph_run |].
    assert (Hg : heap (with_heap w (heap w ++ [GraphObj people])) !! length (heap w)
                 = Some (GraphObj people))
      by (simpl; by apply list_lookup_middle).
    assert (Hlen : rdflib.len (length (heap w))
                     (with_heap w (heap w ++ [GraphObj people]))
                   = Returns 3 (with_heap w (heap w ++ [GraphObj people]))).
    { unfold rdflib.len.
      rewrite (bind_returns _ _ _ _ _ (store_of_graph _ _ _ Hg)).
      unfold ret. by rewrite people_size. }
    split; [exact Hlen |].
    rewrite (bind_returns _ _ _ _ _ (add_all_run _ _ _ _ Hg)).
    rewrite <- people_listed.
    replace (people ∪ people) with people by set_solver.
    rewrite list_insert_id by done. rewrite with_heap_id. exact Hlen.
  - intros w. eexists _, _, _.
    split; [reflexivity |].
    split; [apply calc_det_run |].
    simpl. split; [by apply list_lookup_middle | reflexivity].
Qed.

End invariants.

(** ** What [calc_det] prints *)

Section report.

Context `{np.LinAlg}.

Lemma occurrences_app c (a b : string) :
  occurrences c (a ++ b) = occurrences c a + occurrences c b.
Proof.
  induction a as [|x a IH]; [reflexivity |].
  change (String x a ++ b) with (String x (a ++ b)).
  cbn [occurrences]. rewrite IH. lia.
Qed.

Lemma string_length_app (a b : string) :
  String.length (a ++ b) = String.length a + String.length b.
Proof.
  induction a as [|x a IH]; [reflexivity |].
  change (String x a ++ b) with (String x (a ++ b)).
  cbn [String.length]. by rewrite IH.
Qed.

Lemma get_after (a : string) c (b : string) :
  String.get (String.length a) (a ++ String c b) = Some c.
Proof.
  induction a as [|x a IH]; [reflexivity |].
  change (String x a ++ String c b) with (String x (a ++ String c b)).
  exact IH.
Qed.

(** C5.  [calc_det] takes no argument.  From every state it returns
    [None] and appends to standard output the text
    "Determinant is <value>" followed by the line terminator, where
    <value> is the text of the determinant [np.linalg.det] reported for
    the array; standard error and the files are as they were.  When the
    text of the value has no line feed, what was appended is exactly one
    line. *)
Theorem calc_det_prints_one_line
    (w : World)
    (single : occurrences line_feed (np.float_str determinant) = 0) :
  exists w' written,
    calc_det w = Returns PyNone w' /\
    written = "Determinant is " ++ np.float_str determinant ++ newline /\
    stdout w' = stdout w ++ written /\
    occurrences line_feed written = 1 /\
    String.get (String.length written - 1) written = Some line_feed /\
    stderr w' = stderr w /\
    files w' = files w.
Proof.
  eexists _, _. split; [apply calc_det_run |].
  split; [reflexivity |].
  split.
  { simpl. unfold report_line. by rewrite String_app_assoc. }
  split.
  { rewrite !occurrences_app, single. reflexivity. }
  split; [| done].
  generalize (np.float_str determinant). intros v.
  change ("Determinant is " ++ v ++ newline)
    with (("Determinant is " ++ v) ++ newline).
  generalize ("Determinant is " ++ v). intros p.
  rewrite string_length_app. change (String.length newline) with 1.
  replace (String.length p + 1 - 1) with (String.length p) by lia.
  apply get_after.
Qed.

(** C8.  Any two calls of [calc_det], from whatever states, return the
    same value and append the same text to standard output; so does a
    second call right after a first. *)
Theorem calc_det_idempotent (w1 w2 : World) :
  exists written w1' w2' w1'',
    calc_det w1 = Returns PyNone w1' /\
    calc_det w2 = Returns PyNone w2' /\
    calc_det w1' = Returns PyNone w1'' /\
    stdout w1' = stdout w1 ++ written /\
    stdout w2' = stdout w2 ++ written /\
    stdout w1'' = stdout w1' ++ written.
Proof.
  exists (report_line ++ newline).
  eexists _, _, _.
  rewrite !calc_det_run. repeat split; reflexivity.
Qed.

End report.

(** The exact number type writes its determinant without a line feed. *)
Lemma calc_det_prints_one_line_witness :
  occurrences line_feed (@np.float_str exact.linalg (@determinant exact.linalg)) = 0 /\
  exists w' written,
    @calc_det exact.linalg boot = Returns PyNone w' /\
    written = "Determinant is "
              ++ @np.float_str exact.linalg (@determinant exact.linalg) ++ newline /\
    stdout w' = stdout boot ++ written /\
    occurrences line_feed written = 1 /\
    String.get (String.length written - 1) written = Some line_feed /\
    stderr w' = stderr boot /\
    files w' = files boot.
Proof.
  split; [reflexivity |].
  apply (@calc_det_prints_one_line exact.linalg boot). reflexivity.
Defined.

(** ** Effects, repetition and failure *)

Section effects.

Context `{np.LinAlg} `{rdflib.Rendering}.

(** C6.  [serialize_graph] hands its result back as the return value and
    leaves both standard streams and all files as they were; every object
    that existed before the call is unchanged at its address, and the only
    difference in the store is the one graph the call created.
    [calc_det], by contrast, returns [None] and makes standard output
    longer. *)
Theorem serialize_graph_only_returns (w : World) :
  (exists text w' s,
     serialize_graph w = Returns (PyStr text) w' /\
     stdout w' = stdout w /\
     stderr w' = stderr w /\
     files w' = files w /\
     heap w' = (heap w ++ [GraphObj s])%list /\
     forall (a : nat) (o : Obj), heap w !! a = Some o -> heap w' !! a = Some o) /\
  (exists w',
     calc_det w = Returns PyNone w' /\
     String.length (stdout w) < String.length (stdout w')).
Proof.
  split.
  - exists (turtle people), (with_heap w (heap w ++ [GraphObj people])), people.
    split; [apply serialize_graph_run |].
    repeat (split; [reflexivity |]).
    intros a o Ha. simpl. by apply lookup_app_l_Some.
  - eexists. split; [apply calc_det_run |].
    simpl. rewrite !string_length_app. change (String.length newline) with 1. lia.
Qed.

(** C7.  Calls share no state.  (1) Two calls of [serialize_graph] in a
    row return the same text and leave two graphs at two different
    addresses, each holding the three triples.  (2) [calc_det] and
    [serialize_graph] run in either order return what each returns when
    run alone, and [calc_det] prints the same text in both orders. *)
Theorem calls_do_not_interfere (w : World) :
  (exists text w1 w2 g1 g2,
     serialize_graph w = Returns (PyStr text) w1 /\
     serialize_graph w1 = Returns (PyStr text) w2 /\
     g1 <> g2 /\
     heap w2 !! g1 = Some (GraphObj {[ alice_name; bob_name; alice_knows_bob ]}) /\
     heap w2 !! g2 = Some (GraphObj {[ alice_name; bob_name; alice_knows_bob ]})) /\
  (exists text written wd ws wds wsd,
     calc_det w = Returns PyNone wd /\
     serialize_graph w = Returns (PyStr text) ws /\
     serialize_graph wd = Returns (PyStr text) wds /\
     calc_det ws = Returns PyNone wsd /\
     stdout wd = stdout w ++ written /\
     stdout wds = stdout w ++ written /\
     stdout wsd = stdout w ++ written).
Proof.
  assert (Hp : people = {[ alice_name; bob_name; alice_knows_bob ]})
    by (unfold people; set_solver).
  rewrite <- Hp. split.
  - exists (turtle people). eexists _, _, (length (heap w)), (S (length (heap w))).
    split; [apply serialize_graph_run |].
    split; [apply serialize_graph_run |].
    split; [lia |].
    simpl. split.
    + apply lookup_app_l_Some. by apply list_lookup_middle.
    + replace (S (length (heap w)))
        with (length (heap w ++ [GraphObj people])%list)
        by (rewrite length_app; simpl; lia).
      by apply list_lookup_middle.
  - exists (turtle people), (report_line ++ newline). eexists _, _, _, _.
    split; [apply calc_det_run |].
    split; [apply serialize_graph_run |].
    split; [apply serialize_graph_run |].
    split; [apply calc_det_run |].
    repeat split; reflexivity.
Qed.

(** C9.  Neither function raises: from every state [calc_det] returns
    [None] and [serialize_graph] returns a value. *)
Theorem no_call_raises (w : World) :
  (exists w', calc_det w = Returns PyNone w') /\
  (exists r w', serialize_graph w = Returns r w') /\
  (forall e w', calc_det w <> Raises e w') /\
  (forall e w', serialize_graph w <> Raises e w').
Proof.
  rewrite calc_det_run, serialize_graph_run.
  repeat split; eauto; discriminate.
Qed.

(** C10.  What [serialize_graph] returns is text, a [str], and never a
    byte sequence: the call [g.serialize()] passes no destination and no
    encoding, so the bytes the Turtle plugin wrote in UTF-8 come back
    decoded. *)
Theorem serialize_graph_returns_text (w : World) :
  (exists text w',
     serialize_graph w = Returns (PyStr text) w' /\
     text = rdflib.decode "utf-8"
              (rdflib.render rdflib.TurtleSerializer
                 {[ alice_name; bob_name; alice_knows_bob ]} "utf-8")) /\
  (forall data w', serialize_graph w <> Returns (PyBytes data) w').
Proof.
  assert (Hp : people = {[ alice_name; bob_name; alice_knows_bob ]})
    by (unfold people; set_solver).
  rewrite serialize_graph_run, <- Hp.
  split; [| discriminate].
  exists (turtle people), (with_heap w (heap w ++ [GraphObj people])).
  split; reflexivity.
Qed.

End effects.

(** ** Any sequence of calls *)

Section sequences.

Context `{np.LinAlg} `{rdflib.Rendering}.

Lemma string_app_nil_r (a : string) : a ++ "" = a.
Proof.
  induction a as [|x a IH]; [reflexivity |].
  exact (f_equal (String x) IH).
Qed.

Lemma call_run (c : Call) (w : World) :
  call c w
  = Returns (result_of c)
      (mkWorld (stdout w ++ output_of c) (stderr w) (files w)
         (heap w ++ [object_of c])).
Proof.
  destruct c; simpl.
  - by rewrite calc_det_run.
  - rewrite serialize_graph_run. unfold with_heap.
    by rewrite string_app_nil_r.
Qed.

(** The state a sequence of calls leaves, in closed form. *)
Lemma call_all_run (cs : list Call) : forall w : World,
  call_all cs w
  = Returns (map result_of cs)
      (mkWorld (stdout w ++ concat_text (map output_of cs)) (stderr w) (files w)
         (heap w ++ map object_of cs)).
Proof.
  induction cs as [|c cs IH]; intros w; simpl.
  - unfold ret. rewrite string_app_nil_r, app_nil_r. by destruct w.
  - rewrite (bind_returns _ _ _ _ _ (call_run c w)).
    rewrite (bind_returns _ _ _ _ _ (IH _)).
    unfold ret. simpl.
    by rewrite String_app_assoc, <- app_assoc.
Qed.

Lemma occurrences_output (c : Call) :
  occurrences line_feed (np.float_str determinant) = 0 ->
  occurrences line_feed (output_of c) = lines_of c.
Proof.
  intros Hv. destruct c; [| reflexivity].
  unfold output_of, report_line.
  rewrite !occurrences_app, Hv. reflexivity.
Qed.

(** X1.  However often and in whatever order a caller invokes
    [calc_det] and [serialize_graph], no call raises; every call of
    [calc_det] returns [None], every call of [serialize_graph] returns the
    same text, the Turtle rendering of the three triples; standard output
    grows by the report line and its terminator once per call of
    [calc_det], in call order, and by nothing else; standard error and the
    files stay as they were. *)
Theorem call_sequence_results (cs : list Call) (w : World) :
  exists w',
    call_all cs w
      = Returns
          (map (fun c => match c with
                         | call_calc_det => PyNone
                         | call_serialize_graph => PyStr (turtle people)
                         end) cs)
          w' /\
    stdout w'
      = stdout w
        ++ concat_text
             (map (fun c => match c with
                            | call_calc_det =>
                                "Determinant is " ++ np.float_str determinant
                                ++ newline
                            | call_serialize_graph => ""
                            end) cs) /\
    stderr w' = stderr w /\
    files w' = files w.
Proof.
  eexists. split; [apply call_all_run |].
  simpl. split; [| done].
  f_equal.
Qed.

(** X3.  When the text of the determinant has no line feed, a sequence
    of calls adds to standard output exactly as many line feeds as it has
    calls of [calc_det]: one line per report, whatever calls of
    [serialize_graph] come in between. *)
Theorem call_sequence_lines
    (cs : list Call) (w : World)
    (single : occurrences line_feed (np.float_str determinant) = 0) :
  exists rs w',
    call_all cs w = Returns rs w' /\
    occurrences line_feed (stdout w')
    = occurrences line_feed (stdout w) + sum_list (map lines_of cs).
Proof.
  eexists _, _. split; [apply call_all_run |]. simpl.
  rewrite occurrences_app. f_equal.
  induction cs as [|c cs IH]; [reflexivity |].
  simpl. rewrite occurrences_app, IH.
  by rewrite (occurrences_output c single).
Qed.

End sequences.

(** Two reports around one serialization, with the exact number type and
    the Turtle plugin: two lines. *)
Lemma call_sequence_lines_witness :
  occurrences line_feed (@np.float_str exact.linalg (@determinant exact.linalg)) = 0 /\
  exists rs w',
    @call_all exact.linalg turtle_plugin.alone
      [call_calc_det; call_serialize_graph; call_calc_det] boot
      = Returns rs w' /\
    occurrences line_feed (stdout w')
    = occurrences line_feed (stdout boot)
      + sum_list (map lines_of [call_calc_det; call_serialize_graph; call_calc_det]).
Proof.
  split; [reflexivity |].
  apply (@call_sequence_lines exact.linalg turtle_plugin.alone
           [call_calc_det; call_serialize_graph; call_calc_det] boot).
  reflexivity.
Defined.
